(** * lines-generator: fold-guide pages, checked against [src/index.ts]

    The repository is one TypeScript script in two variants that share
    everything but [createSectionDrawer]: the quadrant variant puts four
    sections on a page, the full-page variant one.  This file embeds the
    script and proves the properties of its layout.

    Conventions of the embedding.
    - Line counts, loop indices and the running section index are JavaScript
      numbers that only ever hold integers; they are [Z].
    - Coordinates are JavaScript numbers obtained by division.  The drawing
      code is written once over an abstract arithmetic ([Number]), so every
      result that does not mention an order holds whatever the arithmetic
      is; the results about order are proved for exact rationals ([Q]).
    - [pdf-lib] is modelled by what the script observes of it: a document is
      the list of its pages, a page is its size and the list of the lines
      drawn on it, in drawing order.  A [PDFPage] reference is the index of
      the page in the document, so that drawing through [currentPage]
      changes the page the document holds.
    - [await] is sequencing; a thrown [Error] is [Threw]; a loop that has
      not left after the given number of iterations is [Running]. *)

From Stdlib Require Import ZArith QArith Lia Lqa String.
From Equations Require Import Equations.
From stdpp Require Import base list.

Local Open Scope Z_scope.

(** ** Numbers *)

Declare Scope num_scope.
Delimit Scope num_scope with num.

Class Number (num : Type) : Type := {
  lit : Q -> num;
  add : num -> num -> num;
  sub : num -> num -> num;
  mul : num -> num -> num;
  div : num -> num -> num
}.

Infix "+" := add : num_scope.
Infix "-" := sub : num_scope.
Infix "*" := mul : num_scope.
Infix "/" := div : num_scope.

(** An integer-valued number used as a coordinate. *)
Definition ofZ {num} `{Number num} (z : Z) : num := lit (inject_Z z).

#[export] Instance Q_Number : Number Q := {
  lit := fun q => q;
  add := Qplus;
  sub := Qminus;
  mul := Qmult;
  div := Qdiv
}.

(** ** Data model *)

Inductive CenterLineSection : Type :=
| Range (minNumLines maxNumLines skipInterval : Z)
| Fixed (numLines : Z).

Record LinesGeneratorConfig (num : Type) : Type := {
  centerLines : list CenterLineSection;
  pageHeight : num;
  pageWidth : num
}.
Arguments centerLines {num} _.
Arguments pageHeight {num} _.
Arguments pageWidth {num} _.

Record Point (num : Type) : Type := { pt_x : num; pt_y : num }.
Arguments Build_Point {num} _ _.
Arguments pt_x {num} _.
Arguments pt_y {num} _.

(** The options object handed to [page.drawLine]. *)
Record DrawLineOptions (num : Type) : Type := {
  dashArray : list Z;
  start : Point num;
  end_ : Point num;
  thickness : Z
}.
Arguments Build_DrawLineOptions {num} _ _ _ _.
Arguments dashArray {num} _.
Arguments start {num} _.
Arguments end_ {num} _.
Arguments thickness {num} _.

Record PDFPage (num : Type) : Type := {
  size : num * num;
  content : list (DrawLineOptions num)
}.
Arguments Build_PDFPage {num} _ _.
Arguments size {num} _.
Arguments content {num} _.

(** A document is the list of its pages. *)
Abbreviation PDFDocument num := (list (PDFPage num)).

(** ** pdf-lib, as the script uses it *)

Section PdfLib.
Context {num : Type} `{Number num}.

Definition drawLine (page : PDFPage num) (o : DrawLineOptions num) : PDFPage num :=
  {| size := size page; content := content page ++ [o] |}.

Definition setSize (page : PDFPage num) (w h : num) : PDFPage num :=
  {| size := (w, h); content := content page |}.

(** [pdfDoc.addPage()] appends an empty page (A4 until resized) and
    returns a reference to it. *)
Definition addPage (pdfDoc : PDFDocument num) : PDFDocument num * nat :=
  (pdfDoc ++ [ {| size := (lit (59528 # 100), lit (84189 # 100)); content := [] |} ],
   length pdfDoc).

(** A method call through a page reference. *)
Definition onPage (f : PDFPage num -> PDFPage num) (page : nat)
    (pdfDoc : PDFDocument num) : PDFDocument num :=
  alter f page pdfDoc.
End PdfLib.

(** ** drawSection *)

Section DrawSection.
Context {num : Type} `{Number num}.

(** The [for] loop of [drawSection], entered with the current
    [lineIndex]. *)
Equations? drawSection_for (page : PDFPage num) (x y height lineSpacing : num)
    (numCenterLines lineIndex : Z) : PDFPage num
    by wf (Z.to_nat (numCenterLines - lineIndex)) lt :=
  drawSection_for page x y height lineSpacing numCenterLines lineIndex
    with Z_lt_dec lineIndex numCenterLines := {
    | left _ :=
        let lineX := (x + ofZ (lineIndex + 1) * lineSpacing)%num in
        let start := {| pt_x := lineX; pt_y := y |} in
        let end_ := {| pt_x := lineX; pt_y := (y + height)%num |} in
        let page' :=
          if Z.rem lineIndex 2 =? 0 then
            drawLine page {| dashArray := [4; 2; 1; 2]; start := start;
                             end_ := end_; thickness := 0 |}
          else
            drawLine page {| dashArray := [4; 1]; start := start;
                             end_ := end_; thickness := 0 |} in
        drawSection_for page' x y height lineSpacing numCenterLines (lineIndex + 1);
    | right _ := page }.
Proof. lia. Qed.

Definition drawSection (page : PDFPage num) (x y width height : num)
    (numCenterLines : Z) : PDFPage num :=
  let lineSpacing := (width / ofZ (numCenterLines + 1))%num in
  drawSection_for page x y height lineSpacing numCenterLines 0.
End DrawSection.

(** ** Control: results of the asynchronous functions *)

Inductive Outcome (S : Type) : Type :=
| Done (s : S)
| Threw (message : string)
| Running (s : S).
Arguments Done {S} _.
Arguments Threw {S} _.
Arguments Running {S} _.

Definition andThen {S : Type} (r : Outcome S) (k : S -> Outcome S) : Outcome S :=
  match r with
  | Done s => k s
  | Threw message => Threw message
  | Running s => Running s
  end.

Notation "r >>= k" := (andThen r k) (at level 50, left associativity).

(** ** The driver: the body of the script, the same in both variants *)

Section Driver.
Context {S : Type} (drawNextSection : Z -> S -> Outcome S).

(** The inner [for] loop, entered with the current [numCenterLines];
    [bound] limits the number of times its body runs. *)
Fixpoint main_for (bound : nat) (numCenterLines maxNumLines skipInterval : Z)
    (s : S) : Outcome S :=
  if numCenterLines <=? maxNumLines then
    match bound with
    | O => Running s
    | Datatypes.S bound' =>
        drawNextSection numCenterLines s >>= fun s' =>
        main_for bound' (numCenterLines + skipInterval) maxNumLines skipInterval s'
    end
  else Done s.

(** The [for ... of centerLines] loop. *)
Fixpoint main_forOf (bound : nat) (centerLines : list CenterLineSection)
    (s : S) : Outcome S :=
  match centerLines with
  | [] => Done s
  | currentCenterLines :: rest =>
      match currentCenterLines with
      | Fixed numLines => drawNextSection numLines s
      | Range minNumLines maxNumLines skipInterval =>
          main_for bound minNumLines maxNumLines skipInterval s
      end >>= fun s' => main_forOf bound rest s'
  end.
End Driver.

(** ** The section drawer: the variables [createSectionDrawer] closes over *)

Record SectionDrawer (num : Type) : Type := {
  pdfDoc : PDFDocument num;
  currentSectionIndex : Z;
  currentPage : option nat
}.
Arguments Build_SectionDrawer {num} _ _ _.
Arguments pdfDoc {num} _.
Arguments currentSectionIndex {num} _.
Arguments currentPage {num} _.

Definition drawCutLine {num : Type} `{Number num} (page : PDFPage num)
    (startX startY endX endY : num) : PDFPage num :=
  drawLine page {| start := {| pt_x := startX; pt_y := startY |};
                   end_ := {| pt_x := endX; pt_y := endY |};
                   thickness := 0;
                   dashArray := [10; 10] |}.

(** *** Quadrant variant (first script) *)

Module Quadrant.
Section Drawer.
Context {num : Type} `{Number num} (config : LinesGeneratorConfig num).

Definition createSectionedPage (pdfDoc : PDFDocument num) : PDFDocument num * nat :=
  let pageWidth := pageWidth config in
  let pageHeight := pageHeight config in
  let '(pdfDoc, page) := addPage pdfDoc in
  let pdfDoc := onPage (fun p => setSize p pageWidth pageHeight) page pdfDoc in
  (* Left border *)
  let pdfDoc := onPage (fun p =>
    drawCutLine p (lit (5 # 10)) (ofZ 0) (lit (5 # 10)) pageHeight) page pdfDoc in
  (* Right border *)
  let pdfDoc := onPage (fun p =>
    drawCutLine p (pageWidth - lit (5 # 10))%num (ofZ 0)
                  (pageWidth - lit (5 # 10))%num pageHeight) page pdfDoc in
  (* Top border *)
  let pdfDoc := onPage (fun p =>
    drawCutLine p (ofZ 0) pageHeight pageWidth pageHeight) page pdfDoc in
  (* Bottom border *)
  let pdfDoc := onPage (fun p =>
    drawCutLine p (ofZ 0) (ofZ 0) pageWidth (ofZ 0)) page pdfDoc in
  (* Vertical line down the middle *)
  let pdfDoc := onPage (fun p =>
    drawCutLine p (pageWidth / ofZ 2)%num (ofZ 0)
                  (pageWidth / ofZ 2)%num pageHeight) page pdfDoc in
  (* Horizontal line across the center *)
  let pdfDoc := onPage (fun p =>
    drawCutLine p (ofZ 0) (pageHeight / ofZ 2)%num
                  pageWidth (pageHeight / ofZ 2)%num) page pdfDoc in
  (pdfDoc, page).

Definition createSectionDrawer (pdfDoc : PDFDocument num) : SectionDrawer num :=
  {| pdfDoc := pdfDoc; currentSectionIndex := 0; currentPage := None |}.

(** The [switch] on [currentSectionIndex % 4]: the drawer after the case,
    and [sectionPos]; [inl] is the [throw] of the [default] case. *)
Definition selectSection (d : SectionDrawer num)
    : string + SectionDrawer num * Point num :=
  let pageWidth := pageWidth config in
  let pageHeight := pageHeight config in
  match Z.rem (currentSectionIndex d) 4 with
  | 0 => (* Top-left section *)
      let '(doc, page) := createSectionedPage (pdfDoc d) in
      inr ({| pdfDoc := doc;
              currentSectionIndex := currentSectionIndex d;
              currentPage := Some page |},
           {| pt_x := ofZ 0; pt_y := (pageHeight / ofZ 2)%num |})
  | 1 => (* Top-right section *)
      inr (d, {| pt_x := (pageWidth / ofZ 2)%num; pt_y := (pageHeight / ofZ 2)%num |})
  | 2 => (* Bottom-left section *)
      inr (d, {| pt_x := ofZ 0; pt_y := ofZ 0 |})
  | 3 => (* Bottom-right section *)
      inr (d, {| pt_x := (pageWidth / ofZ 2)%num; pt_y := ofZ 0 |})
  | _ => inl "No case found for page section"%string
  end.

Definition drawNextSection (numCenterLines : Z) (d : SectionDrawer num)
    : Outcome (SectionDrawer num) :=
  let pageWidth := pageWidth config in
  let pageHeight := pageHeight config in
  match selectSection d with
  | inl message => Threw message
  | inr (d, sectionPos) =>
      match currentPage d with
      | None => Threw "Current page is undefined"%string
      | Some page =>
          Done {| pdfDoc :=
                    onPage (fun p =>
                      drawSection p (pt_x sectionPos) (pt_y sectionPos)
                        (pageWidth / ofZ 2)%num (pageHeight / ofZ 2)%num
                        numCenterLines) page (pdfDoc d);
                  currentSectionIndex := currentSectionIndex d + 1;
                  currentPage := Some page |}
      end
  end.

(** The script body; the document of the resulting drawer is what
    [pdfDoc.save()] serialises. *)
Definition main (bound : nat) : Outcome (SectionDrawer num) :=
  let pdfDoc : PDFDocument num := [] in
  let d := createSectionDrawer pdfDoc in
  main_forOf drawNextSection bound (centerLines config) d.
End Drawer.

(** The configuration the script ships with. *)
Definition config {num : Type} `{Number num} : LinesGeneratorConfig num :=
  {| centerLines :=
       [Range 3 11 2; Range 15 23 4; Fixed 31; Fixed 39; Fixed 51; Fixed 65];
     pageHeight := ofZ 1054;
     pageWidth := ofZ 816 |}.
End Quadrant.

(** *** Full-page variant (second script) *)

Module FullPage.
Section Drawer.
Context {num : Type} `{Number num} (config : LinesGeneratorConfig num).

Definition createSectionedPage (pdfDoc : PDFDocument num) : PDFDocument num * nat :=
  let pageWidth := pageWidth config in
  let pageHeight := pageHeight config in
  let '(pdfDoc, page) := addPage pdfDoc in
  let pdfDoc := onPage (fun p => setSize p pageWidth pageHeight) page pdfDoc in
  (* Left border *)
  let pdfDoc := onPage (fun p =>
    drawCutLine p (lit (5 # 10)) (ofZ 0) (lit (5 # 10)) pageHeight) page pdfDoc in
  (* Right border *)
  let pdfDoc := onPage (fun p =>
    drawCutLine p (pageWidth - lit (5 # 10))%num (ofZ 0)
                  (pageWidth - lit (5 # 10))%num pageHeight) page pdfDoc in
  (* Top border *)
  let pdfDoc := onPage (fun p =>
    drawCutLine p (ofZ 0) (pageHeight - lit (5 # 10))%num
                  pageWidth (pageHeight - lit (5 # 10))%num) page pdfDoc in
  (* Bottom border *)
  let pdfDoc := onPage (fun p =>
    drawCutLine p (ofZ 0) (ofZ 0) pageWidth (ofZ 0)) page pdfDoc in
  (* Center line *)
  let pdfDoc := onPage (fun p =>
    drawCutLine p (ofZ 0) (pageHeight / ofZ 2)%num
                  pageWidth (pageHeight / ofZ 2)%num) page pdfDoc in
  (pdfDoc, page).

Definition createSectionDrawer (pdfDoc : PDFDocument num) : SectionDrawer num :=
  {| pdfDoc := pdfDoc; currentSectionIndex := 0; currentPage := None |}.

Definition drawNextSection (numCenterLines : Z) (d : SectionDrawer num)
    : Outcome (SectionDrawer num) :=
  let pageWidth := pageWidth config in
  let pageHeight := pageHeight config in
  let '(doc, page) := createSectionedPage (pdfDoc d) in
  let d := {| pdfDoc := doc;
              currentSectionIndex := currentSectionIndex d;
              currentPage := Some page |} in
  match currentPage d with
  | None => Threw "Current page is undefined"%string
  | Some page =>
      Done {| pdfDoc :=
                onPage (fun p =>
                  drawSection p (ofZ 0) (ofZ 0) pageWidth pageHeight
                    numCenterLines) page (pdfDoc d);
              currentSectionIndex := currentSectionIndex d;
              currentPage := Some page |}
  end.

(** The script body; the document of the resulting drawer is what
    [pdfDoc.save()] serialises. *)
Definition main (bound : nat) : Outcome (SectionDrawer num) :=
  let pdfDoc : PDFDocument num := [] in
  let d := createSectionDrawer pdfDoc in
  main_forOf drawNextSection bound (centerLines config) d.
End Drawer.

(** The configuration the script ships with. *)
Definition config {num : Type} `{Number num} : LinesGeneratorConfig num :=
  {| centerLines := [Range 9 29 2];
     pageHeight := ofZ 1054;
     pageWidth := ofZ 816 |}.
End FullPage.

(** ** Vocabulary of the statements

    [foldLine], [foldLines], [quadrantOrigin], [progression] and [upTo]
    follow the words of the specification, not the code; [quadrantPage] and
    [fullPage] are the pages that the two [createSectionedPage] are proved
    to build; the rest names what the statements observe of a run. *)

Section Described.
Context {num : Type} `{Number num}.

(** Fold line [k] (0-indexed) of a section: a vertical segment at
    [x0 + (k+1) * (W / (N+1))] from [y0] to [y0 + height]; dash-dot
    (mountain) at even [k], dashed (valley) at odd [k]. *)
Definition foldLineX (x0 width : num) (N k : Z) : num :=
  (x0 + ofZ (k + 1) * (width / ofZ (N + 1)))%num.

Definition mountain : list Z := [4; 2; 1; 2].
Definition valley : list Z := [4; 1].

Definition foldLine (x0 y0 width height : num) (N k : Z) : DrawLineOptions num :=
  {| dashArray := if Z.even k then mountain else valley;
     start := {| pt_x := foldLineX x0 width N k; pt_y := y0 |};
     end_ := {| pt_x := foldLineX x0 width N k; pt_y := (y0 + height)%num |};
     thickness := 0 |}.

(** The fold lines of a section with [N] lines, in drawing order. *)
Definition foldLines (x0 y0 width height : num) (N : Z) : list (DrawLineOptions num) :=
  map (fun k : nat => foldLine x0 y0 width height N (Z.of_nat k)) (seq 0 (Z.to_nat N)).

(** What a call drew on a page: the lines of [after] beyond those that
    [before] already had. *)
Definition drawnBy (before after : PDFPage num) : list (DrawLineOptions num) :=
  drop (length (content before)) (content after).

(** Quadrant placement: the origin of the section with running index [i]. *)
Definition quadrantOrigin (config : LinesGeneratorConfig num) (i : Z) : Point num :=
  let W := pageWidth config in
  let H := pageHeight config in
  match i mod 4 with
  | 0 => {| pt_x := ofZ 0; pt_y := (H / ofZ 2)%num |}
  | 1 => {| pt_x := (W / ofZ 2)%num; pt_y := (H / ofZ 2)%num |}
  | 2 => {| pt_x := ofZ 0; pt_y := ofZ 0 |}
  | _ => {| pt_x := (W / ofZ 2)%num; pt_y := ofZ 0 |}
  end.

(** The page a quadrant-mode [createSectionedPage] leaves in the document:
    resized, with the four borders and the cross. *)
Definition quadrantPage (config : LinesGeneratorConfig num) : PDFPage num :=
  let W := pageWidth config in
  let H := pageHeight config in
  let cut (a b c d : num) : DrawLineOptions num :=
    {| dashArray := [10; 10]; start := {| pt_x := a; pt_y := b |};
       end_ := {| pt_x := c; pt_y := d |}; thickness := 0 |} in
  {| size := (W, H);
     content :=
       [ cut (lit (5 # 10)) (ofZ 0) (lit (5 # 10)) H;
         cut (W - lit (5 # 10))%num (ofZ 0) (W - lit (5 # 10))%num H;
         cut (ofZ 0) H W H;
         cut (ofZ 0) (ofZ 0) W (ofZ 0);
         cut (W / ofZ 2)%num (ofZ 0) (W / ofZ 2)%num H;
         cut (ofZ 0) (H / ofZ 2)%num W (H / ofZ 2)%num ] |}.

(** The same for full-page mode: four borders and the horizontal centre
    line. *)
Definition fullPage (config : LinesGeneratorConfig num) : PDFPage num :=
  let W := pageWidth config in
  let H := pageHeight config in
  let cut (a b c d : num) : DrawLineOptions num :=
    {| dashArray := [10; 10]; start := {| pt_x := a; pt_y := b |};
       end_ := {| pt_x := c; pt_y := d |}; thickness := 0 |} in
  {| size := (W, H);
     content :=
       [ cut (lit (5 # 10)) (ofZ 0) (lit (5 # 10)) H;
         cut (W - lit (5 # 10))%num (ofZ 0) (W - lit (5 # 10))%num H;
         cut (ofZ 0) (H - lit (5 # 10))%num W (H - lit (5 # 10))%num;
         cut (ofZ 0) (ofZ 0) W (ofZ 0);
         cut (ofZ 0) (H / ofZ 2)%num W (H / ofZ 2)%num ] |}.

(** What every reachable quadrant drawer satisfies: the index is not
    negative and, inside a page, [currentPage] is the last page of the
    document. *)
Definition quadrantInv (d : SectionDrawer num) : Prop :=
  0 <= currentSectionIndex d /\
  (currentSectionIndex d mod 4 <> 0 ->
   exists front p, pdfDoc d = front ++ [p] /\ currentPage d = Some (length front)).
End Described.

(** *** The document of a run

    A quadrant page is laid out from the line counts of the sections it
    holds, at most four, in drawing order; a document from the line counts
    of a run, four to a page. *)

Section Layout.
Context {num : Type} `{Number num} (config : LinesGeneratorConfig num).

Definition quadrantSections (l : list Z) : list (DrawLineOptions num) :=
  concat (imap (fun (q : nat) (n : Z) =>
                  foldLines (pt_x (quadrantOrigin config (Z.of_nat q)))
                            (pt_y (quadrantOrigin config (Z.of_nat q)))
                            (pageWidth config / ofZ 2)%num
                            (pageHeight config / ofZ 2)%num n) l).

Definition quadrantPageOf (l : list Z) : PDFPage num :=
  {| size := (pageWidth config, pageHeight config);
     content := content (quadrantPage config) ++ quadrantSections l |}.

Fixpoint quadrantLayout (counts : list Z) : list (PDFPage num) :=
  match counts with
  | a :: b :: c :: d :: rest => quadrantPageOf [a; b; c; d] :: quadrantLayout rest
  | [] => []
  | l => [quadrantPageOf l]
  end.

Definition fullPageOf (n : Z) : PDFPage num :=
  {| size := (pageWidth config, pageHeight config);
     content := content (fullPage config) ++
                foldLines (ofZ 0) (ofZ 0) (pageWidth config) (pageHeight config) n |}.
End Layout.

(** A document that has kept every page of another, with its size and
    with the lines it had, in order, before any new one. *)
Definition keepsPages {num : Type} (doc doc' : list (PDFPage num)) : Prop :=
  forall (j : nat) (p : PDFPage num),
    doc !! j = Some p ->
    exists p', doc' !! j = Some p' /\ size p' = size p /\
               exists added, content p' = content p ++ added.

(** A quadrant drawer that has drawn the sections [counts] on top of the
    document [doc0]. *)
Definition laidOut {num : Type} `{Number num} (config : LinesGeneratorConfig num)
    (doc0 : list (PDFPage num)) (counts : list Z) (d : SectionDrawer num) : Prop :=
  pdfDoc d = doc0 ++ quadrantLayout config counts /\
  currentSectionIndex d = Z.of_nat (length counts) /\
  currentPage d =
    match counts with
    | [] => None
    | _ => Some (length doc0 + length (quadrantLayout config counts) - 1)%nat
    end.

(** A sequence of [drawNextSection] calls, one per line count. *)
Fixpoint drawAll {S : Type} (drawNextSection : Z -> S -> Outcome S)
    (counts : list Z) (s : S) : Outcome S :=
  match counts with
  | [] => Done s
  | numCenterLines :: rest =>
      drawNextSection numCenterLines s >>= fun s' => drawAll drawNextSection rest s'
  end.

(** The section expander on its own: the driver run with a
    [drawNextSection] that only notes the count it is given. *)
Definition noteCount (numCenterLines : Z) (seen : list Z) : Outcome (list Z) :=
  Done (seen ++ [numCenterLines]).

Definition expand (bound : nat) (centerLines : list CenterLineSection)
    : Outcome (list Z) :=
  main_forOf noteCount bound centerLines [].

(** The first [n] terms of the progression [min, min + step, ...]. *)
Definition progression (min step : Z) (n : nat) : list Z :=
  map (fun i : nat => min + Z.of_nat i * step) (seq 0 n).

(** A list cut before its first element above [max]. *)
Fixpoint upTo (max : Z) (l : list Z) : list Z :=
  match l with
  | [] => []
  | v :: l' => if v <=? max then v :: upTo max l' else []
  end.



(** The configuration of the end-to-end example. *)
Definition example_config : LinesGeneratorConfig Q :=
  {| centerLines := [Fixed 3; Fixed 5];
     pageHeight := ofZ 1054;
     pageWidth := ofZ 816 |}.

(** The configuration of the full-page example. *)
Definition fullPage_example_config : LinesGeneratorConfig Q :=
  {| centerLines := [Range 9 13 2];
     pageHeight := ofZ 1054;
     pageWidth := ofZ 816 |}.

(** The x-positions at which the lines of a list start. *)
Definition startXs {num : Type} (l : list (DrawLineOptions num)) : list num :=
  map (fun o => pt_x (start o)) l.

(** The x-positions the example is described with, and those of half the
    page width. *)
Definition example_described_xs : list Q :=
  [ 204 * 1 / 4; 204 * 2 / 4; 204 * 3 / 4;
    408 + 204 * 1 / 6; 408 + 204 * 2 / 6; 408 + 204 * 3 / 6;
    408 + 204 * 4 / 6; 408 + 204 * 5 / 6 ]%Q.

Definition example_xs : list Q :=
  [ 408 * 1 / 4; 408 * 2 / 4; 408 * 3 / 4;
    408 + 408 * 1 / 6; 408 + 408 * 2 / 6; 408 + 408 * 3 / 6;
    408 + 408 * 4 / 6; 408 + 408 * 5 / 6 ]%Q.

(** ** Properties of [drawSection] *)

Section DrawSectionFacts.
Context {num : Type} `{Number num}.

Lemma rem2_even (k : Z) : (Z.rem k 2 =? 0) = Z.even k.
Proof.
  destruct (Z.even k) eqn:E.
  - apply Z.eqb_eq. apply Z.even_spec in E. destruct E as [m ->].
    rewrite Z.mul_comm. apply Z.rem_mul. lia.
  - apply Z.eqb_neq. intros R.
    assert (Z.odd k = true) as O by (rewrite <- Z.negb_even, E; reflexivity).
    apply Z.odd_spec in O. destruct O as [m ->].
    pose proof (Z.quot_rem' (2 * m + 1) 2) as Q. rewrite R in Q. lia.
Qed.

Lemma even_of_nat (k : nat) : Z.even (Z.of_nat k) = Nat.even k.
Proof.
  induction k as [k IH] using (well_founded_induction lt_wf).
  destruct k as [|[|k]]; [reflexivity..|].
  replace (Z.of_nat (Datatypes.S (Datatypes.S k)))
    with (Z.succ (Z.succ (Z.of_nat k))) by lia.
  rewrite Z.even_succ_succ. cbn [Nat.even]. apply IH. lia.
Qed.

(** The loop only appends: entered at [lineIndex], it draws the lines
    [lineIndex], [lineIndex + 1], ... below [numCenterLines], with whatever
    [lineSpacing] it is given. *)
Lemma drawSection_for_spec (page : PDFPage num) (x y height lineSpacing : num)
    (numCenterLines lineIndex : Z) :
  drawSection_for page x y height lineSpacing numCenterLines lineIndex =
  {| size := size page;
     content := content page ++
       map (fun k : nat =>
              let i := lineIndex + Z.of_nat k in
              let lineX := (x + ofZ (i + 1) * lineSpacing)%num in
              {| dashArray := if Z.even i then mountain else valley;
                 start := {| pt_x := lineX; pt_y := y |};
                 end_ := {| pt_x := lineX; pt_y := (y + height)%num |};
                 thickness := 0 |})
           (seq 0 (Z.to_nat (numCenterLines - lineIndex))) |}.
Proof.
  funelim (drawSection_for page x y height lineSpacing numCenterLines lineIndex).
  - match goal with IH : _ = Build_PDFPage _ _ |- _ => rewrite IH end.
    replace (Z.to_nat (numCenterLines - lineIndex))
      with (Datatypes.S (Z.to_nat (numCenterLines - (lineIndex + 1)))) by lia.
    rewrite rem2_even. cbn [seq map]. rewrite Z.add_0_r.
    destruct (Z.even lineIndex); cbn [drawLine size content];
      rewrite <- app_assoc; cbn [app]; do 3 f_equal;
      rewrite <- seq_shift, map_map; apply map_ext; intros k;
      replace (lineIndex + 1 + Z.of_nat k) with (lineIndex + Z.of_nat (Datatypes.S k)) by lia;
      reflexivity.
  - replace (Z.to_nat (numCenterLines - lineIndex)) with 0%nat by lia.
    cbn [seq map]. rewrite app_nil_r. destruct page; reflexivity.
Qed.

Lemma drawSection_spec (page : PDFPage num) (x y width height : num) (N : Z) :
  drawSection page x y width height N =
  {| size := size page; content := content page ++ foldLines x y width height N |}.
Proof.
  unfold drawSection. cbv zeta. rewrite drawSection_for_spec.
  rewrite Z.sub_0_r. reflexivity.
Qed.

Lemma foldLines_length (x y width height : num) (N : Z) :
  length (foldLines x y width height N) = Z.to_nat N.
Proof. unfold foldLines. rewrite length_map, length_seq. reflexivity. Qed.

Lemma foldLines_lookup (x y width height : num) (N : Z) (k : nat) :
  (Z.of_nat k < N) ->
  foldLines x y width height N !! k = Some (foldLine x y width height N (Z.of_nat k)).
Proof.
  intros Hk. unfold foldLines. rewrite list_lookup_fmap.
  rewrite lookup_seq_lt by lia. reflexivity.
Qed.
End DrawSectionFacts.

Section DrawSectionClaims.
Context {num : Type} `{Number num}.

Lemma drawnBy_drawSection (page : PDFPage num) (x y width height : num) (N : Z) :
  drawnBy page (drawSection page x y width height N) = foldLines x y width height N.
Proof.
  unfold drawnBy. rewrite drawSection_spec. cbn [content].
  apply drop_app_length.
Qed.

(** C1. In a section drawn with line count [N] at origin [(x0, y0)] with
    width [W], the [k]-th drawn fold line ([0 <= k < N], so [N >= 1]) is
    the vertical segment at x-position [x0 + (k+1) * (W / (N+1))] that runs
    from [y0] to [y0 + height]. *)
Theorem drawSection_line_position (page : PDFPage num) (x0 y0 W height : num)
    (N k : Z) :
  0 <= k < N ->
  exists line : DrawLineOptions num,
    drawnBy page (drawSection page x0 y0 W height N) !! Z.to_nat k = Some line /\
    start line =
      {| pt_x := (x0 + ofZ (k + 1) * (W / ofZ (N + 1)))%num; pt_y := y0 |} /\
    end_ line =
      {| pt_x := (x0 + ofZ (k + 1) * (W / ofZ (N + 1)))%num;
         pt_y := (y0 + height)%num |}.
Proof.
  intros Hk. exists (foldLine x0 y0 W height N k).
  rewrite drawnBy_drawSection, foldLines_lookup by lia.
  rewrite Z2Nat.id by lia. repeat split.
Qed.

(** C2. Drawing a section with line count [N >= 0] leaves what the page
    had and adds exactly [N] lines; the line of even index is dash-dot
    [[4; 2; 1; 2]] and the line of odd index is dashed [[4; 1]], so index 0
    is dash-dot. *)
Theorem drawSection_count_and_dashes (page : PDFPage num) (x0 y0 W height : num)
    (N : Z) :
  0 <= N ->
  let drawn := drawnBy page (drawSection page x0 y0 W height N) in
  content (drawSection page x0 y0 W height N) = content page ++ drawn /\
  Z.of_nat (length drawn) = N /\
  forall (k : nat) (line : DrawLineOptions num),
    drawn !! k = Some line ->
    dashArray line = if Nat.even k then [4; 2; 1; 2] else [4; 1].
Proof.
  intros HN drawn. subst drawn. rewrite drawnBy_drawSection.
  split; [rewrite drawSection_spec; reflexivity|].
  split; [rewrite foldLines_length; lia|].
  intros k line Hk.
  assert (k < Z.to_nat N)%nat as Hlt.
  { rewrite <- (foldLines_length x0 y0 W height N). eapply lookup_lt_Some, Hk. }
  rewrite foldLines_lookup in Hk by lia. injection Hk as <-.
  cbn [foldLine dashArray]. rewrite even_of_nat. reflexivity.
Qed.

(** C10. With [numCenterLines <= 0] (zero or negative) [drawSection] draws
    nothing and returns the page as it was; the quotient
    [width / (numCenterLines + 1)] is computed and never read: the loop
    returns the page whatever [lineSpacing] is, also at
    [numCenterLines = -1], where the divisor is 0. *)
Theorem drawSection_no_lines (page : PDFPage num) (x y width height : num)
    (numCenterLines : Z) :
  numCenterLines <= 0 ->
  drawSection page x y width height numCenterLines = page /\
  drawnBy page (drawSection page x y width height numCenterLines) = [] /\
  forall lineSpacing : num,
    drawSection_for page x y height lineSpacing numCenterLines 0 = page.
Proof.
  intros HN.
  assert (forall lineSpacing : num,
    drawSection_for page x y height lineSpacing numCenterLines 0 = page) as Hfor.
  { intros ls. rewrite drawSection_for_spec.
    replace (Z.to_nat (numCenterLines - 0)) with 0%nat by lia.
    cbn [seq map]. rewrite app_nil_r. destruct page; reflexivity. }
  assert (drawSection page x y width height numCenterLines = page) as Hpage
    by apply Hfor.
  split; [exact Hpage|]. split; [|exact Hfor].
  rewrite Hpage. unfold drawnBy. apply drop_all.
Qed.
End DrawSectionClaims.

(** ** Order: exact arithmetic *)


(** With exact arithmetic it does not matter whether the quotient or the
    product is formed first. *)
Lemma foldLineX_grouping (x0 W : Q) (N k : Z) :
  (foldLineX x0 W N k == x0 + inject_Z (k + 1) * W / inject_Z (N + 1))%Q.
Proof.
  unfold foldLineX, ofZ. cbn [add mul div lit Q_Number]. unfold Qdiv. ring.
Qed.


(** ** The driver's loops *)

Section DriverFacts.
Context {S : Type} (drawNextSection : Z -> S -> Outcome S).

Lemma andThen_Done (r : Outcome S) : r >>= Done = r.
Proof. destruct r; reflexivity. Qed.

Lemma andThen_assoc (r : Outcome S) (f g : S -> Outcome S) :
  r >>= f >>= g = r >>= (fun s => f s >>= g).
Proof. destruct r; reflexivity. Qed.

Lemma progression_S (min step : Z) (n : nat) :
  progression min step (Datatypes.S n) = min :: progression (min + step) step n.
Proof.
  unfold progression. cbn [seq map]. f_equal; [lia|].
  rewrite <- seq_shift, map_map. apply map_ext. intros i. lia.
Qed.

(** The loop body runs on the terms of the progression, in order, until
    the first term above [maxNumLines]; after [bound] terms without one, the
    loop is still running. *)
Lemma main_for_spec (bound : nat) (min max step : Z) (s : S) :
  main_for drawNextSection bound min max step s =
  drawAll drawNextSection (upTo max (progression min step bound)) s >>=
  (if forallb (fun v => v <=? max) (progression min step (Datatypes.S bound))
   then Running else Done).
Proof.
  revert min s. induction bound as [|bound IH]; intros min s.
  - cbn. rewrite Z.mul_0_l, Z.add_0_r. destruct (min <=? max); reflexivity.
  - rewrite (progression_S min step (Datatypes.S bound)), (progression_S min step bound).
    cbn [main_for upTo forallb]. destruct (min <=? max); [|reflexivity].
    cbn [drawAll andb]. rewrite andThen_assoc.
    destruct (drawNextSection min s) as [s'| |]; cbn [andThen]; [|reflexivity..].
    apply IH.
Qed.







Lemma progression_stuck (min max step : Z) (n : nat) :
  min <= max -> step <= 0 ->
  forallb (fun v => v <=? max) (progression min step n) = true.
Proof.
  intros Hle Hs. apply forallb_forall. intros v Hv.
  unfold progression in Hv. apply in_map_iff in Hv.
  destruct Hv as (i & <- & _). apply Z.leb_le. nia.
Qed.

Lemma andThen_ext (r : Outcome S) (f g : S -> Outcome S) :
  (forall s, f s = g s) -> r >>= f = r >>= g.
Proof. intros E. destruct r; cbn [andThen]; [apply E|reflexivity..]. Qed.

Lemma drawAll_app (l1 l2 : list Z) (s : S) :
  drawAll drawNextSection (l1 ++ l2) s =
  drawAll drawNextSection l1 s >>= drawAll drawNextSection l2.
Proof.
  revert s. induction l1 as [|n l1 IH]; intros s; [reflexivity|].
  cbn [app drawAll]. rewrite andThen_assoc. apply andThen_ext, IH.
Qed.

(** A property that each call keeps and under which each call returns
    holds throughout the driver: its loops do not throw. *)
Section Invariant.
Variable Inv : S -> Prop.
Hypothesis call_keeps :
  forall (n : Z) (s : S), Inv s -> exists s', drawNextSection n s = Done s' /\ Inv s'.

Lemma drawAll_keeps (counts : list Z) (s : S) :
  Inv s -> exists s', drawAll drawNextSection counts s = Done s' /\ Inv s'.
Proof.
  revert s. induction counts as [|n counts IH]; intros s Hs.
  - exists s. split; [reflexivity|exact Hs].
  - destruct (call_keeps n s Hs) as (s1 & E1 & H1).
    cbn [drawAll]. rewrite E1. cbn [andThen]. apply IH, H1.
Qed.

Lemma main_for_keeps (bound : nat) (min max step : Z) (s : S) :
  Inv s ->
  exists s', Inv s' /\
    (main_for drawNextSection bound min max step s = Done s' \/
     main_for drawNextSection bound min max step s = Running s').
Proof.
  intros Hs. rewrite main_for_spec.
  destruct (drawAll_keeps (upTo max (progression min step bound)) s Hs) as (s' & -> & Hs').
  exists s'. split; [exact Hs'|]. cbn [andThen].
  destruct (forallb _ _); [right|left]; reflexivity.
Qed.

Lemma main_forOf_keeps (bound : nat) (centerLines : list CenterLineSection) (s : S) :
  Inv s ->
  exists s', Inv s' /\
    (main_forOf drawNextSection bound centerLines s = Done s' \/
     main_forOf drawNextSection bound centerLines s = Running s').
Proof.
  revert s. induction centerLines as [|c centerLines IH]; intros s Hs.
  - exists s. split; [exact Hs|left; reflexivity].
  - cbn [main_forOf]. destruct c as [min max step|numLines].
    + destruct (main_for_keeps bound min max step s Hs) as (s1 & H1 & [-> | ->]).
      * cbn [andThen]. apply IH, H1.
      * exists s1. split; [exact H1|right; reflexivity].
    + destruct (call_keeps numLines s Hs) as (s1 & -> & H1).
      cbn [andThen]. apply IH, H1.
Qed.
End Invariant.
End DriverFacts.

Lemma drawAll_noteCount (counts seen : list Z) :
  drawAll noteCount counts seen = Done (seen ++ counts).
Proof.
  revert seen. induction counts as [|n counts IH]; intros seen.
  - cbn. rewrite app_nil_r. reflexivity.
  - cbn [drawAll noteCount andThen]. rewrite IH, <- app_assoc. reflexivity.
Qed.

(** The driver is its expansion followed by the calls: when the expander
    yields [counts], the driver makes exactly the calls [counts], in order,
    whatever [drawNextSection] is. *)
Lemma main_forOf_noteCount {S : Type} (drawNextSection : Z -> S -> Outcome S)
    (bound : nat) (centerLines : list CenterLineSection) (seen seen' : list Z) :
  main_forOf noteCount bound centerLines seen = Done seen' ->
  exists counts : list Z,
    seen' = seen ++ counts /\
    forall s : S,
      main_forOf drawNextSection bound centerLines s = drawAll drawNextSection counts s.
Proof.
  revert seen. induction centerLines as [|c centerLines IH]; intros seen Hrun.
  - cbn in Hrun. injection Hrun as <-. exists []. split; [now rewrite app_nil_r|reflexivity].
  - cbn [main_forOf] in Hrun. destruct c as [min max step|numLines].
    + rewrite main_for_spec, drawAll_noteCount in Hrun. cbn [andThen] in Hrun.
      destruct (forallb _ _) eqn:Hall in Hrun; [discriminate|]. cbn [andThen] in Hrun.
      destruct (IH _ Hrun) as (counts & -> & Hcalls).
      exists (upTo max (progression min step bound) ++ counts).
      split; [now rewrite app_assoc|]. intros s. cbn [main_forOf].
      rewrite main_for_spec, Hall, andThen_Done, drawAll_app.
      apply andThen_ext, Hcalls.
    + cbn [noteCount andThen] in Hrun.
      destruct (IH _ Hrun) as (counts & -> & Hcalls).
      exists (numLines :: counts). split; [now rewrite <- app_assoc|].
      intros s. cbn [main_forOf drawAll]. apply andThen_ext, Hcalls.
Qed.

Lemma main_forOf_expand {S : Type} (drawNextSection : Z -> S -> Outcome S)
    (bound : nat) (centerLines : list CenterLineSection) (counts : list Z) (s : S) :
  expand bound centerLines = Done counts ->
  main_forOf drawNextSection bound centerLines s = drawAll drawNextSection counts s.
Proof.
  intros Hrun. destruct (main_forOf_noteCount drawNextSection _ _ _ _ Hrun)
    as (counts' & E & Hcalls).
  cbn [app] in E. subst counts'. apply Hcalls.
Qed.

(** The counts of the two shipped configurations. *)
Example quadrant_config_counts :
  expand 5 (centerLines (Quadrant.config (num := Q))) =
  Done [3; 5; 7; 9; 11; 15; 19; 23; 31; 39; 51; 65].
Proof. reflexivity. Qed.

Example fullPage_config_counts :
  expand 11 (centerLines (FullPage.config (num := Q))) =
  Done [9; 11; 13; 15; 17; 19; 21; 23; 25; 27; 29].
Proof. reflexivity. Qed.





(** With a step of 0 the loop has only made its calls, however many
    iterations it is given. *)
Lemma expand_step_zero_running (bound : nat) :
  expand bound [Range 1 1 0] = Running (repeat 1 bound).
Proof.
  unfold expand. cbn [main_forOf].
  rewrite main_for_spec, drawAll_noteCount, progression_stuck by lia.
  cbn [andThen app]. f_equal.
  induction bound as [|bound IH]; [reflexivity|].
  rewrite progression_S. change (1 + 0) with 1. cbn [upTo repeat].
  rewrite IH. reflexivity.
Qed.


(** ** Page allocation *)

Section Allocation.
Context {num : Type} `{Number num}.

Lemma onPage_last (f : PDFPage num -> PDFPage num) (doc : PDFDocument num)
    (p : PDFPage num) :
  onPage f (length doc) (doc ++ [p]) = doc ++ [f p].
Proof.
  unfold onPage. rewrite alter_app_r_alt by lia.
  rewrite Nat.sub_diag. reflexivity.
Qed.

Lemma quadrant_createSectionedPage (config : LinesGeneratorConfig num)
    (doc : PDFDocument num) :
  Quadrant.createSectionedPage config doc = (doc ++ [quadrantPage config], length doc).
Proof.
  unfold Quadrant.createSectionedPage, addPage. cbv zeta.
  rewrite !onPage_last. reflexivity.
Qed.

Lemma fullPage_createSectionedPage (config : LinesGeneratorConfig num)
    (doc : PDFDocument num) :
  FullPage.createSectionedPage config doc = (doc ++ [fullPage config], length doc).
Proof.
  unfold FullPage.createSectionedPage, addPage. cbv zeta.
  rewrite !onPage_last. reflexivity.
Qed.

Lemma drawSection_size (page : PDFPage num) (x y width height : num) (N : Z) :
  size (drawSection page x y width height N) = size page.
Proof. rewrite drawSection_spec. reflexivity. Qed.

Lemma quadrantInv_fresh (doc : PDFDocument num) :
  quadrantInv (Quadrant.createSectionDrawer doc).
Proof. split; [cbn; lia|]. cbn. intros E. now contradiction E. Qed.

Lemma rem4_cases (i : Z) :
  0 <= i ->
  Z.rem i 4 = i mod 4 /\ (i mod 4 = 0 \/ i mod 4 = 1 \/ i mod 4 = 2 \/ i mod 4 = 3).
Proof.
  intros Hi. split; [apply Z.rem_mod_nonneg; lia|].
  pose proof (Z.mod_pos_bound i 4). lia.
Qed.

(** One call from a drawer that satisfies [quadrantInv]. *)
Lemma quadrant_drawNextSection_step (config : LinesGeneratorConfig num)
    (N : Z) (d : SectionDrawer num) :
  quadrantInv d ->
  exists front base,
    (currentSectionIndex d mod 4 = 0 ->
       front = pdfDoc d /\ base = quadrantPage config) /\
    (currentSectionIndex d mod 4 <> 0 -> pdfDoc d = front ++ [base]) /\
    Quadrant.selectSection config d =
      inr ({| pdfDoc := front ++ [base];
              currentSectionIndex := currentSectionIndex d;
              currentPage := Some (length front) |},
           quadrantOrigin config (currentSectionIndex d)) /\
    Quadrant.drawNextSection config N d =
      Done {| pdfDoc :=
                front ++ [drawSection base
                            (pt_x (quadrantOrigin config (currentSectionIndex d)))
                            (pt_y (quadrantOrigin config (currentSectionIndex d)))
                            (pageWidth config / ofZ 2)%num
                            (pageHeight config / ofZ 2)%num N];
              currentSectionIndex := currentSectionIndex d + 1;
              currentPage := Some (length front) |}.
Proof.
  intros [Hidx Hcur].
  destruct (rem4_cases _ Hidx) as [Hrem Hcases].
  destruct (Z.eq_dec (currentSectionIndex d mod 4) 0) as [E0|NE0].
  - exists (pdfDoc d), (quadrantPage config).
    split; [auto|]. split; [intros C; now contradiction C|].
    assert (Quadrant.selectSection config d =
      inr ({| pdfDoc := pdfDoc d ++ [quadrantPage config];
              currentSectionIndex := currentSectionIndex d;
              currentPage := Some (length (pdfDoc d)) |},
           quadrantOrigin config (currentSectionIndex d))) as Hsel.
    { unfold Quadrant.selectSection, quadrantOrigin. cbv zeta.
      rewrite Hrem, E0, quadrant_createSectionedPage. reflexivity. }
    split; [exact Hsel|].
    unfold Quadrant.drawNextSection. cbv zeta. rewrite Hsel.
    cbn [currentPage pdfDoc currentSectionIndex].
    rewrite onPage_last. reflexivity.
  - destruct (Hcur NE0) as (front & p & Hdoc & Hpage).
    exists front, p. split; [intros C; now contradiction NE0|].
    split; [auto|].
    assert (Quadrant.selectSection config d =
      inr (d, quadrantOrigin config (currentSectionIndex d))) as Hsel.
    { unfold Quadrant.selectSection, quadrantOrigin. cbv zeta. rewrite Hrem.
      destruct Hcases as [E|[E|[E|E]]]; rewrite E; first [now contradiction NE0 | reflexivity]. }
    split.
    + rewrite Hsel. destruct d as [doc idx cur]. cbn in *. subst. reflexivity.
    + unfold Quadrant.drawNextSection. cbv zeta. rewrite Hsel, Hpage, Hdoc.
      rewrite onPage_last. reflexivity.
Qed.

Lemma quadrant_drawNextSection_inv (config : LinesGeneratorConfig num)
    (N : Z) (d : SectionDrawer num) :
  quadrantInv d ->
  exists d', Quadrant.drawNextSection config N d = Done d' /\
             quadrantInv d' /\
             currentSectionIndex d' = currentSectionIndex d + 1.
Proof.
  intros Hinv.
  destruct (quadrant_drawNextSection_step config N d Hinv)
    as (front & base & _ & _ & _ & Hdraw).
  eexists. split; [exact Hdraw|]. destruct Hinv as [Hidx _].
  split; [|reflexivity]. split; cbn; [lia|]. intros _. eauto.
Qed.

Lemma fullPage_drawNextSection_step (config : LinesGeneratorConfig num)
    (N : Z) (d : SectionDrawer num) :
  FullPage.drawNextSection config N d =
    Done {| pdfDoc :=
              pdfDoc d ++ [drawSection (fullPage config) (ofZ 0) (ofZ 0)
                             (pageWidth config) (pageHeight config) N];
            currentSectionIndex := currentSectionIndex d;
            currentPage := Some (length (pdfDoc d)) |}.
Proof.
  unfold FullPage.drawNextSection. cbv zeta.
  rewrite fullPage_createSectionedPage. cbn [currentPage pdfDoc currentSectionIndex].
  rewrite onPage_last. reflexivity.
Qed.
End Allocation.

Section AllocationClaims.
Context {num : Type} `{Number num}.

Lemma quadrant_drawAll (config : LinesGeneratorConfig num) (counts : list Z)
    (d : SectionDrawer num) :
  quadrantInv d ->
  exists d', drawAll (Quadrant.drawNextSection config) counts d = Done d' /\
             quadrantInv d' /\
             currentSectionIndex d' = currentSectionIndex d + Z.of_nat (length counts).
Proof.
  revert d. induction counts as [|N counts IH]; intros d Hinv.
  - exists d. cbn. repeat split; [apply Hinv..|lia].
  - destruct (quadrant_drawNextSection_inv config N d Hinv) as (d1 & Hd1 & Hinv1 & Hidx1).
    destruct (IH d1 Hinv1) as (d' & Hd' & Hinv' & Hidx').
    exists d'. cbn [drawAll]. rewrite Hd1. cbn [andThen].
    repeat split; [exact Hd'|apply Hinv'..|]. cbn [length]. lia.
Qed.

(** C3. Quadrant mode, section of running index [i] (the call that follows
    [i] calls on a fresh drawer): the call succeeds and draws a region of
    [W/2] by [H/2] whose origin is [(0, H/2)], [(W/2, H/2)], [(0, 0)] or
    [(W/2, 0)] as [i mod 4] is 0, 1, 2 or 3; when [i mod 4 = 0] the region
    is on a new page appended to the document, otherwise on the page the
    document ends with, and the number of pages grows exactly when
    [i mod 4 = 0]. *)
Theorem quadrant_placement (config : LinesGeneratorConfig num)
    (doc0 : PDFDocument num) (counts : list Z) (N : Z) :
  let i := Z.of_nat (length counts) in
  let W := pageWidth config in
  let H := pageHeight config in
  exists (d d' : SectionDrawer num) (front : PDFDocument num) (base : PDFPage num),
    drawAll (Quadrant.drawNextSection config) counts
      (Quadrant.createSectionDrawer doc0) = Done d /\
    currentSectionIndex d = i /\
    Quadrant.drawNextSection config N d = Done d' /\
    currentSectionIndex d' = i + 1 /\
    pdfDoc d' =
      front ++ [drawSection base (pt_x (quadrantOrigin config i))
                  (pt_y (quadrantOrigin config i))
                  (W / ofZ 2)%num (H / ofZ 2)%num N] /\
    quadrantOrigin config i =
      (if i mod 4 =? 0 then {| pt_x := ofZ 0; pt_y := (H / ofZ 2)%num |}
       else if i mod 4 =? 1 then {| pt_x := (W / ofZ 2)%num; pt_y := (H / ofZ 2)%num |}
       else if i mod 4 =? 2 then {| pt_x := ofZ 0; pt_y := ofZ 0 |}
       else {| pt_x := (W / ofZ 2)%num; pt_y := ofZ 0 |}) /\
    (i mod 4 = 0 ->
       front = pdfDoc d /\ base = quadrantPage config /\ size base = (W, H)) /\
    (i mod 4 <> 0 -> pdfDoc d = front ++ [base]) /\
    (length (pdfDoc d') = Datatypes.S (length (pdfDoc d)) <-> i mod 4 = 0).
Proof.
  intros i W Hh.
  destruct (quadrant_drawAll config counts (Quadrant.createSectionDrawer doc0)
              (quadrantInv_fresh doc0)) as (d & Hrun & Hinv & Hidx).
  cbn [Quadrant.createSectionDrawer currentSectionIndex] in Hidx.
  rewrite Z.add_0_l in Hidx. fold i in Hidx.
  destruct (quadrant_drawNextSection_step config N d Hinv)
    as (front & base & H0 & Hn0 & _ & Hdraw).
  rewrite Hidx in H0, Hn0, Hdraw.
  eexists d, _, front, base.
  split; [exact Hrun|]. split; [exact Hidx|]. split; [exact Hdraw|].
  cbn [pdfDoc currentSectionIndex]. split; [reflexivity|]. split; [reflexivity|].
  split.
  { unfold quadrantOrigin. cbv zeta. fold W Hh.
    assert (0 <= i) as Hi by (unfold i; lia).
    destruct (rem4_cases i Hi) as [_ [E|[E|[E|E]]]]; rewrite E; reflexivity. }
  split.
  { intros E. destruct (H0 E) as [-> ->]. repeat split. }
  split; [exact Hn0|].
  rewrite length_app. cbn [length].
  split.
  - intros Hlen. destruct (Z.eq_dec (i mod 4) 0) as [E|NE]; [exact E|].
    rewrite (Hn0 NE), length_app in Hlen. cbn [length] in Hlen. lia.
  - intros E. destruct (H0 E) as [-> _]. lia.
Qed.

(** X5. The page count of a quadrant run: after [n] calls on a fresh
    drawer the document has one more page per four sections. *)
Lemma quadrant_page_count (config : LinesGeneratorConfig num)
    (doc0 : PDFDocument num) (counts : list Z) :
  exists d,
    drawAll (Quadrant.drawNextSection config) counts
      (Quadrant.createSectionDrawer doc0) = Done d /\
    Z.of_nat (length (pdfDoc d)) =
      Z.of_nat (length doc0) + (Z.of_nat (length counts) + 3) / 4.
Proof.
  pose (Inv := fun d : SectionDrawer num =>
    quadrantInv d /\
    Z.of_nat (length (pdfDoc d)) =
      Z.of_nat (length doc0) + (currentSectionIndex d + 3) / 4).
  assert (forall (n : Z) (d : SectionDrawer num), Inv d ->
    exists d', Quadrant.drawNextSection config n d = Done d' /\ Inv d') as Hkeeps.
  { intros n d [Hinv Hlen].
    destruct (quadrant_drawNextSection_inv config n d Hinv) as (d' & Hd' & Hinv' & Hidx').
    exists d'. split; [exact Hd'|]. split; [exact Hinv'|].
    destruct (quadrant_drawNextSection_step config n d Hinv)
      as (front & base & H0 & Hn0 & _ & Hdraw).
    rewrite Hdraw in Hd'. injection Hd' as <-. cbn [pdfDoc currentSectionIndex] in *.
    rewrite length_app. cbn [length]. destruct Hinv as [Hnn _].
    destruct (Z.eq_dec (currentSectionIndex d mod 4) 0) as [E|NE].
    - destruct (H0 E) as [-> _]. Z.div_mod_to_equations. lia.
    - rewrite (Hn0 NE), length_app in Hlen. cbn [length] in Hlen.
      Z.div_mod_to_equations. lia. }
  assert (forall d : SectionDrawer num, Inv d ->
    exists d', drawAll (Quadrant.drawNextSection config) counts d = Done d' /\
               Inv d' /\
               currentSectionIndex d' = currentSectionIndex d + Z.of_nat (length counts))
    as Hrun.
  { induction counts as [|n counts IH]; intros d Hd.
    - exists d. cbn. repeat split; [apply Hd..|lia].
    - destruct (Hkeeps n d Hd) as (d1 & E1 & H1).
      destruct (quadrant_drawNextSection_inv config n d (proj1 Hd)) as (d1' & E1' & _ & Hidx).
      rewrite E1 in E1'. injection E1' as <-.
      destruct (IH d1 H1) as (d' & E' & H' & Hidx').
      exists d'. cbn [drawAll]. rewrite E1. cbn [andThen length].
      repeat split; [exact E'|apply H'..|lia]. }
  destruct (Hrun (Quadrant.createSectionDrawer doc0)) as (d & E & [_ Hlen] & Hidx).
  { split; [apply quadrantInv_fresh|].
    cbn [pdfDoc currentSectionIndex Quadrant.createSectionDrawer].
    change ((0 + 3) / 4) with 0. lia. }
  exists d. split; [exact E|]. rewrite Hlen, Hidx. reflexivity.
Qed.

(** In full-page mode, one page per call. *)
Lemma fullPage_page_count (config : LinesGeneratorConfig num)
    (d : SectionDrawer num) (counts : list Z) :
  exists d',
    drawAll (FullPage.drawNextSection config) counts d = Done d' /\
    length (pdfDoc d') = (length (pdfDoc d) + length counts)%nat.
Proof.
  revert d. induction counts as [|n counts IH]; intros d.
  - exists d. split; [reflexivity|cbn; lia].
  - cbn [drawAll]. rewrite fullPage_drawNextSection_step. cbn [andThen].
    destruct (IH {| pdfDoc :=
                      pdfDoc d ++ [drawSection (fullPage config) (ofZ 0) (ofZ 0)
                                     (pageWidth config) (pageHeight config) n];
                    currentSectionIndex := currentSectionIndex d;
                    currentPage := Some (length (pdfDoc d)) |}) as (d' & E & Hlen).
    exists d'. split; [exact E|]. rewrite Hlen. cbn [pdfDoc length].
    rewrite length_app. cbn [length]. lia.
Qed.

(** C7. Neither fatal branch is reached from a fresh drawer: after any
    sequence of calls, the next call's [switch] on [index % 4] takes one of
    its four cases, not the [default] that throws, and the page is defined
    when the guard tests it; every call returns, also in the full-page
    variant, and the script throws neither error whatever its
    configuration. *)
Theorem fatal_branches_unreachable (config : LinesGeneratorConfig num)
    (doc0 : PDFDocument num) (counts : list Z) :
  (exists d d1 sectionPos page,
     drawAll (Quadrant.drawNextSection config) counts
       (Quadrant.createSectionDrawer doc0) = Done d /\
     Quadrant.selectSection config d = inr (d1, sectionPos) /\
     currentPage d1 = Some page) /\
  (exists d, drawAll (FullPage.drawNextSection config) counts
               (FullPage.createSectionDrawer doc0) = Done d) /\
  (forall (bound : nat) (message : string),
     Quadrant.main config bound <> Threw message /\
     FullPage.main config bound <> Threw message).
Proof.
  split; [|split].
  - destruct (quadrant_drawAll config counts (Quadrant.createSectionDrawer doc0)
                (quadrantInv_fresh doc0)) as (d & Hrun & Hinv & _).
    destruct (quadrant_drawNextSection_step config 0 d Hinv)
      as (front & base & _ & _ & Hsel & _).
    exists d. do 3 eexists. split; [exact Hrun|]. split; [exact Hsel|]. reflexivity.
  - generalize (FullPage.createSectionDrawer doc0).
    induction counts as [|N counts IH]; intros d.
    + exists d. reflexivity.
    + cbn [drawAll]. rewrite fullPage_drawNextSection_step. cbn [andThen]. apply IH.
  - intros bound message. split.
    + unfold Quadrant.main. cbv zeta.
      destruct (main_forOf_keeps (Quadrant.drawNextSection config) quadrantInv)
        with (bound := bound) (centerLines := centerLines config)
             (s := Quadrant.createSectionDrawer (num := num) [])
        as (d & _ & [-> | ->]); try discriminate.
      * intros n d Hd. destruct (quadrant_drawNextSection_inv config n d Hd)
          as (d' & E & Hd' & _). eauto.
      * apply quadrantInv_fresh.
    + unfold FullPage.main. cbv zeta.
      destruct (main_forOf_keeps (FullPage.drawNextSection config) (fun _ => True))
        with (bound := bound) (centerLines := centerLines config)
             (s := FullPage.createSectionDrawer (num := num) [])
        as (d & _ & [-> | ->]); try discriminate.
      * intros n d _. rewrite fullPage_drawNextSection_step. eauto.
      * exact I.
Qed.

(** C9. Full-page mode: every call of [drawNextSection] appends exactly
    one page to the document, sized [pageWidth] by [pageHeight], and draws
    the fold lines on it in the region of origin [(0, 0)], of the full page
    width and the full page height. *)
Theorem fullPage_placement (config : LinesGeneratorConfig num)
    (N : Z) (d : SectionDrawer num) :
  let W := pageWidth config in
  let H := pageHeight config in
  exists (d' : SectionDrawer num) (page : PDFPage num),
    FullPage.drawNextSection config N d = Done d' /\
    pdfDoc d' = pdfDoc d ++ [page] /\
    currentPage d' = Some (length (pdfDoc d)) /\
    page = drawSection (fullPage config) (ofZ 0) (ofZ 0) W H N /\
    size page = (W, H) /\
    drawnBy (fullPage config) page = foldLines (ofZ 0) (ofZ 0) W H N.
Proof.
  intros W Hh. do 2 eexists.
  split; [apply fullPage_drawNextSection_step|]. cbn [pdfDoc currentPage].
  split; [reflexivity|]. split; [reflexivity|]. split; [reflexivity|].
  split; [rewrite drawSection_size; reflexivity|].
  apply drawnBy_drawSection.
Qed.
End AllocationClaims.

(** ** The end-to-end example *)

Lemma singleton_inj {A : Type} (a b : A) : [a] = [b] -> a = b.
Proof. intros E. injection E as E. exact E. Qed.

Lemma singleton_snoc_inv {A : Type} (a b : A) (l : list A) :
  [a] = l ++ [b] -> l = [] /\ a = b.
Proof.
  destruct l as [|c l]; intros E.
  - injection E as E. split; [reflexivity|exact E].
  - destruct l; discriminate E.
Qed.

Lemma example_run (bound : nat) :
  Quadrant.main example_config bound =
  Done {| pdfDoc :=
            [drawSection
               (drawSection (quadrantPage example_config)
                  (ofZ 0) (ofZ 1054 / ofZ 2)%num
                  (ofZ 816 / ofZ 2)%num (ofZ 1054 / ofZ 2)%num 3)
               (ofZ 816 / ofZ 2)%num (ofZ 1054 / ofZ 2)%num
               (ofZ 816 / ofZ 2)%num (ofZ 1054 / ofZ 2)%num 5];
          currentSectionIndex := 2;
          currentPage := Some 0%nat |}.
Proof.
  unfold Quadrant.main, example_config. cbn [centerLines main_forOf].
  destruct (quadrant_drawNextSection_step example_config 3
              (Quadrant.createSectionDrawer [])
              (quadrantInv_fresh [])) as (f0 & b0 & H0 & _ & _ & Hd0).
  destruct (H0 eq_refl) as [-> ->]. unfold example_config in Hd0. rewrite Hd0.
  cbn [andThen].
  match goal with |- context [Quadrant.drawNextSection ?c 5 ?d] =>
    destruct (quadrant_drawNextSection_step c 5 d) as (f1 & b1 & _ & H1 & _ & Hd1)
  end.
  { split; cbn; [lia|]. intros _. exists [], (drawSection (quadrantPage example_config)
      (ofZ 0) (ofZ 1054 / ofZ 2)%num (ofZ 816 / ofZ 2)%num (ofZ 1054 / ofZ 2)%num 3).
    split; reflexivity. }
  rewrite Hd1. cbn [andThen].
  cbn [currentSectionIndex pdfDoc Quadrant.createSectionDrawer] in H1.
  assert ((0 + 1) mod 4 <> 0) as NE by (vm_compute; discriminate).
  specialize (H1 NE). cbn [app] in H1.
  apply singleton_snoc_inv in H1. destruct H1 as [-> <-]. reflexivity.
Qed.

(** C5, as the code has it. In quadrant mode the configuration
    [[{numLines: 3}, {numLines: 5}]] with [pageWidth = 816] and
    [pageHeight = 1054] produces one page of that size with two sections
    drawn, both in the upper half (every fold line runs from [y = 527] to
    [y = 1054]): three fold lines at [x = 408k/4], [k = 1..3], in the
    top-left quadrant and five at [x = 408 + 408k/6], [k = 1..5], in the
    top-right one. *)
Theorem example_one_page (bound : nat) :
  exists (d : SectionDrawer Q) (page : PDFPage Q),
    Quadrant.main example_config bound = Done d /\
    pdfDoc d = [page] /\
    currentSectionIndex d = 2 /\
    size page = (816%Q, 1054%Q) /\
    Forall2 Qeq (startXs (drawnBy (quadrantPage example_config) page)) example_xs /\
    Forall (fun line => pt_x (end_ line) = pt_x (start line) /\
                        (pt_y (start line) == 527)%Q /\
                        (pt_y (end_ line) == 1054)%Q)
           (drawnBy (quadrantPage example_config) page) /\
    Forall (fun lx => (0 < lx)%Q /\ (lx < 408)%Q)
           (take 3 (startXs (drawnBy (quadrantPage example_config) page))) /\
    Forall (fun lx => (408 < lx)%Q /\ (lx < 816)%Q)
           (drop 3 (startXs (drawnBy (quadrantPage example_config) page))).
Proof.
  do 2 eexists. split; [apply example_run|]. cbn [pdfDoc currentSectionIndex].
  split; [reflexivity|]. split; [reflexivity|].
  split; [rewrite !drawSection_size; reflexivity|].
  rewrite 2!drawSection_spec. unfold drawnBy. cbn [content].
  rewrite <- app_assoc, drop_app_length.
  match goal with |- context [startXs ?l] =>
    let l' := eval vm_compute in l in change l with l'
  end.
  cbn [startXs map take drop pt_x pt_y start end_].
  split; [|split; [|split]]; repeat constructor.
Qed.

(** C5, as stated, fails: the fold lines are not at [204k/4] and
    [408 + 204k/6]; the first one is at 102, not at 51. *)
Lemma example_lines_not_as_described :
  ~ (exists (d : SectionDrawer Q) (page : PDFPage Q),
       Quadrant.main example_config 0 = Done d /\
       pdfDoc d = [page] /\
       Forall2 Qeq (startXs (drawnBy (quadrantPage example_config) page))
         example_described_xs).
Proof.
  intros (d & page & Hrun & Hdoc & Hxs).
  rewrite example_run in Hrun. injection Hrun as <-.
  cbn [pdfDoc] in Hdoc. apply singleton_inj in Hdoc. subst page.
  rewrite 2!drawSection_spec in Hxs. unfold drawnBy in Hxs. cbn [content] in Hxs.
  rewrite <- app_assoc, drop_app_length in Hxs.
  match type of Hxs with context [startXs ?l] =>
    let l' := eval vm_compute in l in change l with l' in Hxs
  end.
  cbn [startXs map pt_x start] in Hxs.
  inversion Hxs as [|lx lx' l l' Hfirst _]; subst.
  discriminate Hfirst.
Qed.

(** The full-page example of the specification: the range
    [{min: 9, max: 13, step: 2}] gives three full-size pages with 9, 11
    and 13 fold lines. *)
Example fullPage_example :
  exists (d : SectionDrawer Q) (p9 p11 p13 : PDFPage Q),
    FullPage.main fullPage_example_config 3 = Done d /\
    pdfDoc d = [p9; p11; p13] /\
    Forall (fun p => size p = (816%Q, 1054%Q)) [p9; p11; p13] /\
    map (fun p => length (drawnBy (fullPage fullPage_example_config) p)) [p9; p11; p13]
      = [9; 11; 13]%nat.
Proof.
  unfold FullPage.main. cbv zeta.
  rewrite (main_forOf_expand _ 3 _ [9; 11; 13]) by reflexivity.
  cbn [drawAll]. rewrite !fullPage_drawNextSection_step. cbn [andThen pdfDoc app].
  do 4 eexists. split; [reflexivity|]. cbn [pdfDoc]. split; [reflexivity|]. split.
  - repeat constructor; rewrite drawSection_size; reflexivity.
  - cbn [map]. rewrite !drawnBy_drawSection, !foldLines_length. reflexivity.
Qed.

(** ** The theorems at concrete inputs *)

(** The top-left section of the example: line 1 of 3 is at
    [0 + 2 * (408 / 4)]. *)
Lemma drawSection_line_position_witness :
  0 <= 1 < 3 /\
  exists line : DrawLineOptions Q,
    drawnBy (quadrantPage example_config)
      (drawSection (quadrantPage example_config) 0%Q 527%Q 408%Q 527%Q 3)
      !! Z.to_nat 1 = Some line /\
    start line = {| pt_x := (0%Q + ofZ (1 + 1) * (408%Q / ofZ (3 + 1)))%num;
                    pt_y := 527%Q |} /\
    end_ line = {| pt_x := (0%Q + ofZ (1 + 1) * (408%Q / ofZ (3 + 1)))%num;
                   pt_y := (527%Q + 527%Q)%num |}.
Proof.
  split; [lia|].
  apply (drawSection_line_position (quadrantPage example_config)
           0%Q 527%Q 408%Q 527%Q 3 1); lia.
Defined.

Lemma drawSection_count_and_dashes_witness :
  0 <= 5 /\
  content (drawSection (quadrantPage example_config) 408%Q 527%Q 408%Q 527%Q 5) =
    content (quadrantPage example_config) ++
    drawnBy (quadrantPage example_config)
      (drawSection (quadrantPage example_config) 408%Q 527%Q 408%Q 527%Q 5) /\
  Z.of_nat (length (drawnBy (quadrantPage example_config)
      (drawSection (quadrantPage example_config) 408%Q 527%Q 408%Q 527%Q 5))) = 5 /\
  forall (k : nat) (line : DrawLineOptions Q),
    drawnBy (quadrantPage example_config)
      (drawSection (quadrantPage example_config) 408%Q 527%Q 408%Q 527%Q 5) !! k
      = Some line ->
    dashArray line = if Nat.even k then [4; 2; 1; 2] else [4; 1].
Proof.
  split; [lia|].
  apply (drawSection_count_and_dashes (quadrantPage example_config)
           408%Q 527%Q 408%Q 527%Q 5); lia.
Defined.

(** [numCenterLines = -1]: the divisor is 0 and nothing is drawn. *)
Lemma drawSection_no_lines_witness :
  -1 <= 0 /\
  drawSection (quadrantPage example_config) 0%Q 527%Q 408%Q 527%Q (-1) =
    quadrantPage example_config /\
  drawnBy (quadrantPage example_config)
    (drawSection (quadrantPage example_config) 0%Q 527%Q 408%Q 527%Q (-1)) = [] /\
  forall lineSpacing : Q,
    drawSection_for (quadrantPage example_config) 0%Q 527%Q 527%Q lineSpacing (-1) 0 =
    quadrantPage example_config.
Proof.
  split; [lia|].
  apply (drawSection_no_lines (quadrantPage example_config)
           0%Q 527%Q 408%Q 527%Q (-1)); lia.
Defined.


(** The fifth section of a run starts the second page. *)
Lemma quadrant_placement_witness :
  Z.of_nat (length [3; 5; 7; 9]) mod 4 = 0 /\
  exists (d d' : SectionDrawer Q) (page : PDFPage Q),
    drawAll (Quadrant.drawNextSection example_config) [3; 5; 7; 9]
      (Quadrant.createSectionDrawer []) = Done d /\
    Quadrant.drawNextSection example_config 11 d = Done d' /\
    pdfDoc d' = pdfDoc d ++ [page] /\
    size page = (pageWidth example_config, pageHeight example_config).
Proof.
  split; [reflexivity|].
  destruct (quadrant_placement example_config [] [3; 5; 7; 9] 11)
    as (d & d' & front & base & Hrun & _ & Hdraw & _ & Hdoc & _ & Hnew & _).
  destruct (Hnew eq_refl) as (Hfront & _ & Hsize).
  exists d, d'. eexists. split; [exact Hrun|]. split; [exact Hdraw|].
  split; [rewrite Hdoc, Hfront; reflexivity|].
  rewrite drawSection_size. exact Hsize.
Defined.



(** ** Whole runs: the document a run leaves *)

Lemma list_ind4 {A : Type} (P : list A -> Prop) :
  P [] -> (forall a, P [a]) -> (forall a b, P [a; b]) -> (forall a b c, P [a; b; c]) ->
  (forall a b c d rest, P rest -> P (a :: b :: c :: d :: rest)) ->
  forall l, P l.
Proof.
  intros H0 H1 H2 H3 H4 l.
  assert (forall (n : nat) (l : list A), (length l <= n)%nat -> P l) as Hn.
  { clear l. induction n as [|n IH]; intros l Hl.
    - destruct l; [exact H0|cbn in Hl; lia].
    - destruct l as [|a [|b [|c [|d rest]]]]; auto.
      apply H4, IH. cbn in Hl. lia. }
  apply (Hn (length l)). lia.
Qed.

Section LayoutFacts.
Context {num : Type} `{Number num} (config : LinesGeneratorConfig num).

Lemma quadrantOrigin_mod4 (i j : Z) :
  i mod 4 = j mod 4 -> quadrantOrigin config i = quadrantOrigin config j.
Proof. intros E. unfold quadrantOrigin. rewrite E. reflexivity. Qed.

Lemma quadrantPageOf_nil : quadrantPageOf config [] = quadrantPage config.
Proof. reflexivity. Qed.

(** Drawing one more section on a page that holds the sections [l]. *)
Lemma quadrantPageOf_snoc (l : list Z) (n : Z) :
  drawSection (quadrantPageOf config l)
    (pt_x (quadrantOrigin config (Z.of_nat (length l))))
    (pt_y (quadrantOrigin config (Z.of_nat (length l))))
    (pageWidth config / ofZ 2)%num (pageHeight config / ofZ 2)%num n =
  quadrantPageOf config (l ++ [n]).
Proof.
  rewrite drawSection_spec. unfold quadrantPageOf, quadrantSections. cbn [size content].
  rewrite imap_app, concat_app. cbn [imap concat]. rewrite Nat.add_0_r, app_nil_r.
  rewrite <- app_assoc. reflexivity.
Qed.

Lemma quadrantLayout_length (counts : list Z) :
  length (quadrantLayout config counts) = ((length counts + 3) / 4)%nat.
Proof.
  induction counts as [| | | |a b c d rest IH] using list_ind4; try reflexivity.
  cbn [quadrantLayout length]. rewrite IH.
  replace (Datatypes.S (Datatypes.S (Datatypes.S (Datatypes.S (length rest)))) + 3)%nat
    with (length rest + 3 + 1 * 4)%nat by lia.
  rewrite Nat.div_add by lia. lia.
Qed.

(** The layout of a run with one more section: a new page when the
    sections so far fill their pages, otherwise one more section on the
    last page. *)
Lemma quadrantLayout_snoc (counts : list Z) (n : Z) :
  (length counts mod 4 = 0 /\
   quadrantLayout config (counts ++ [n]) =
     quadrantLayout config counts ++ [quadrantPageOf config [n]])%nat \/
  (length counts mod 4 <> 0)%nat /\
  exists front l,
    length l = (length counts mod 4)%nat /\
    quadrantLayout config counts = front ++ [quadrantPageOf config l] /\
    quadrantLayout config (counts ++ [n]) = front ++ [quadrantPageOf config (l ++ [n])].
Proof.
  induction counts as [|a|a b|a b c|a b c d rest IH] using list_ind4.
  - left. split; reflexivity.
  - right. split; [cbn; lia|]. exists [], [a]. repeat split.
  - right. split; [cbn; lia|]. exists [], [a; b]. repeat split.
  - right. split; [cbn; lia|]. exists [], [a; b; c]. repeat split.
  - assert (length (a :: b :: c :: d :: rest) mod 4 = length rest mod 4)%nat as Emod.
    { cbn [length].
      replace (Datatypes.S (Datatypes.S (Datatypes.S (Datatypes.S (length rest)))))
        with (length rest + 1 * 4)%nat by lia.
      apply Nat.Div0.mod_add. }
    rewrite Emod. cbn [app quadrantLayout].
    destruct IH as [[E0 El]|[NE (front & l & Hl & Hc & Hn)]].
    + left. split; [exact E0|]. rewrite El. reflexivity.
    + right. split; [exact NE|].
      exists (quadrantPageOf config [a; b; c; d] :: front), l.
      split; [exact Hl|]. rewrite Hc, Hn. split; reflexivity.
Qed.
End LayoutFacts.

Section QuadrantRuns.
Context {num : Type} `{Number num} (config : LinesGeneratorConfig num).

Lemma laidOut_fresh (doc0 : PDFDocument num) :
  laidOut config doc0 [] (Quadrant.createSectionDrawer doc0).
Proof. repeat split. cbn. now rewrite app_nil_r. Qed.

Lemma laidOut_step (doc0 : PDFDocument num) (counts : list Z) (n : Z)
    (d : SectionDrawer num) :
  laidOut config doc0 counts d ->
  exists d', Quadrant.drawNextSection config n d = Done d' /\
             laidOut config doc0 (counts ++ [n]) d'.
Proof.
  intros (Hdoc & Hidx & Hcur).
  assert (currentSectionIndex d mod 4 = Z.of_nat (length counts mod 4)) as Emod.
  { rewrite Hidx, Nat2Z.inj_mod. reflexivity. }
  assert (match counts ++ [n] with
          | [] => None
          | _ => Some (length doc0 + length (quadrantLayout config (counts ++ [n])) - 1)%nat
          end = Some (length doc0 + length (quadrantLayout config (counts ++ [n])) - 1)%nat)
    as Hsome by (destruct counts; reflexivity).
  assert (Z.of_nat (length (counts ++ [n])) = currentSectionIndex d + 1) as Hlen.
  { rewrite length_app, Hidx. cbn [length]. lia. }
  destruct (quadrantLayout_snoc config counts n)
    as [[E0 El]|[NE (front & l & Hl & Hc & Hn)]].
  - assert (quadrantInv d) as Hinv.
    { split; [lia|]. intros C. rewrite Emod, E0 in C. now contradiction C. }
    destruct (quadrant_drawNextSection_step config n d Hinv)
      as (front & base & Hnew & _ & _ & Hdraw).
    rewrite Emod, E0 in Hnew. destruct (Hnew eq_refl) as [-> ->].
    eexists. split; [exact Hdraw|]. unfold laidOut. cbn [pdfDoc currentSectionIndex currentPage].
    rewrite Hsome, Hlen, El, Hdoc. rewrite !length_app. cbn [length].
    rewrite (quadrantOrigin_mod4 config (currentSectionIndex d) (Z.of_nat (length (@nil Z))))
      by (rewrite Emod, E0; reflexivity).
    rewrite <- quadrantPageOf_nil, quadrantPageOf_snoc, <- app_assoc.
    repeat split. f_equal. lia.
  - assert (counts <> []) as Hne by (intros ->; now contradiction NE).
    assert (currentPage d = Some (length (doc0 ++ front))) as Hcur'.
    { destruct counts; [now contradiction Hne|]. rewrite Hcur, Hc, !length_app.
      cbn [length]. f_equal. lia. }
    assert (pdfDoc d = (doc0 ++ front) ++ [quadrantPageOf config l]) as Hdoc'.
    { rewrite Hdoc, Hc, app_assoc. reflexivity. }
    assert (quadrantInv d) as Hinv.
    { split; [lia|]. intros _. eauto. }
    destruct (quadrant_drawNextSection_step config n d Hinv)
      as (front' & base & _ & Hsame & _ & Hdraw).
    assert (currentSectionIndex d mod 4 <> 0) as NEz by (rewrite Emod; lia).
    specialize (Hsame NEz). rewrite Hdoc' in Hsame.
    apply app_inj_tail in Hsame. destruct Hsame as [<- <-].
    eexists. split; [exact Hdraw|]. unfold laidOut. cbn [pdfDoc currentSectionIndex currentPage].
    rewrite Hsome, Hlen, Hn. rewrite !length_app. cbn [length].
    rewrite (quadrantOrigin_mod4 config (currentSectionIndex d) (Z.of_nat (length l)))
      by (rewrite Emod, Hl; symmetry; apply Z.mod_small; pose proof (Nat.mod_upper_bound (length counts) 4); lia).
    rewrite quadrantPageOf_snoc, <- app_assoc.
    repeat split. f_equal. lia.
Qed.

Lemma laidOut_run (doc0 : PDFDocument num) (counts more : list Z)
    (d : SectionDrawer num) :
  laidOut config doc0 counts d ->
  exists d', drawAll (Quadrant.drawNextSection config) more d = Done d' /\
             laidOut config doc0 (counts ++ more) d'.
Proof.
  revert counts d. induction more as [|n more IH]; intros counts d Hd.
  - exists d. rewrite app_nil_r. split; [reflexivity|exact Hd].
  - destruct (laidOut_step doc0 counts n d Hd) as (d1 & E1 & H1).
    destruct (IH (counts ++ [n]) d1 H1) as (d' & E' & H').
    exists d'. cbn [drawAll]. rewrite E1. cbn [andThen].
    split; [exact E'|]. rewrite <- app_assoc in H'. exact H'.
Qed.
End QuadrantRuns.

Section RunTheorems.
Context {num : Type} `{Number num} (config : LinesGeneratorConfig num).

(** X1. The document of a quadrant run. Any sequence of calls on a fresh
    drawer returns; it leaves the pages the document had, followed by one
    page per four sections, each with the borders and the cross and then the
    fold lines of its sections in drawing order; the index is the number of
    calls and [currentPage] is the last page. *)
Theorem quadrant_run_document (doc0 : PDFDocument num) (counts : list Z) :
  drawAll (Quadrant.drawNextSection config) counts (Quadrant.createSectionDrawer doc0) =
  Done {| pdfDoc := doc0 ++ quadrantLayout config counts;
          currentSectionIndex := Z.of_nat (length counts);
          currentPage :=
            match counts with
            | [] => None
            | _ => Some (length doc0 + (length counts + 3) / 4 - 1)%nat
            end |}.
Proof.
  destruct (laidOut_run config doc0 [] counts _ (laidOut_fresh config doc0))
    as (d & Hrun & Hdoc & Hidx & Hcur).
  cbn [app] in Hdoc, Hidx, Hcur. rewrite quadrantLayout_length in Hcur.
  rewrite Hrun. destruct d as [doc idx cur]. cbn in Hdoc, Hidx, Hcur. subst.
  reflexivity.
Qed.

Lemma fullPage_drawAll (counts : list Z) (d : SectionDrawer num) :
  exists d',
    drawAll (FullPage.drawNextSection config) counts d = Done d' /\
    pdfDoc d' = pdfDoc d ++ map (fullPageOf config) counts /\
    currentSectionIndex d' = currentSectionIndex d /\
    currentPage d' =
      match counts with
      | [] => currentPage d
      | _ => Some (length (pdfDoc d) + length counts - 1)%nat
      end.
Proof.
  revert d. induction counts as [|n counts IH]; intros d.
  - exists d. cbn. rewrite app_nil_r. repeat split.
  - cbn [drawAll]. rewrite fullPage_drawNextSection_step. cbn [andThen].
    match goal with |- context [drawAll _ counts ?d1] =>
      destruct (IH d1) as (d' & Hrun & Hdoc & Hidx & Hcur)
    end.
    cbn [pdfDoc currentSectionIndex currentPage] in Hdoc, Hidx, Hcur.
    exists d'. split; [exact Hrun|]. split; [|split; [exact Hidx|]].
    + rewrite Hdoc, drawSection_spec, <- app_assoc. reflexivity.
    + rewrite Hcur, length_app. cbn [length].
      destruct counts; f_equal; cbn [length]; lia.
Qed.

(** X2. The document of a full-page run. Any sequence of calls returns; each
    call appends one page, with the borders and the centre line and then its
    fold lines over the whole page, in call order; the section index is
    never changed. *)
Theorem fullPage_run_document (counts : list Z) (d : SectionDrawer num) :
  drawAll (FullPage.drawNextSection config) counts d =
  Done {| pdfDoc := pdfDoc d ++ map (fullPageOf config) counts;
          currentSectionIndex := currentSectionIndex d;
          currentPage :=
            match counts with
            | [] => currentPage d
            | _ => Some (length (pdfDoc d) + length counts - 1)%nat
            end |}.
Proof.
  destruct (fullPage_drawAll counts d) as (d' & Hrun & Hdoc & Hidx & Hcur).
  rewrite Hrun. destruct d' as [doc idx cur]. cbn in Hdoc, Hidx, Hcur. subst.
  reflexivity.
Qed.


End RunTheorems.

(** ** What later calls leave alone *)

Section Kept.
Context {num : Type} `{Number num} (config : LinesGeneratorConfig num).

Lemma keepsPages_refl (doc : PDFDocument num) : keepsPages doc doc.
Proof.
  intros j p Hj. exists p. split; [exact Hj|]. split; [reflexivity|].
  exists []. now rewrite app_nil_r.
Qed.

Lemma keepsPages_trans (doc1 doc2 doc3 : PDFDocument num) :
  keepsPages doc1 doc2 -> keepsPages doc2 doc3 -> keepsPages doc1 doc3.
Proof.
  intros H12 H23 j p Hj.
  destruct (H12 j p Hj) as (p2 & Hj2 & Hs2 & a2 & Hc2).
  destruct (H23 j p2 Hj2) as (p3 & Hj3 & Hs3 & a3 & Hc3).
  exists p3. split; [exact Hj3|]. split; [congruence|].
  exists (a2 ++ a3). rewrite Hc3, Hc2, app_assoc. reflexivity.
Qed.

Lemma keepsPages_snoc (doc0 : PDFDocument num) (counts : list Z) (n : Z) :
  keepsPages (doc0 ++ quadrantLayout config counts)
             (doc0 ++ quadrantLayout config (counts ++ [n])).
Proof.
  destruct (quadrantLayout_snoc config counts n)
    as [[_ El]|[_ (front & l & _ & Hc & Hn)]].
  - rewrite El, app_assoc. intros j p Hj. exists p.
    split; [rewrite lookup_app_l; [exact Hj|eapply lookup_lt_Some, Hj]|].
    split; [reflexivity|]. exists []. now rewrite app_nil_r.
  - rewrite Hc, Hn, !app_assoc. intros j p Hj.
    destruct (Nat.lt_ge_cases j (length (doc0 ++ front))) as [Hlt|Hge].
    + rewrite lookup_app_l in Hj by exact Hlt. exists p.
      split; [rewrite lookup_app_l; [exact Hj|exact Hlt]|].
      split; [reflexivity|]. exists []. now rewrite app_nil_r.
    + assert (j = length (doc0 ++ front)) as ->.
      { apply lookup_lt_Some in Hj. rewrite length_app in Hj. cbn [length] in Hj. lia. }
      rewrite list_lookup_middle in Hj by reflexivity. injection Hj as <-.
      exists (quadrantPageOf config (l ++ [n])).
      split; [apply list_lookup_middle; reflexivity|]. split; [reflexivity|].
      rewrite <- quadrantPageOf_snoc, drawSection_spec. cbn [content]. eauto.
Qed.

Lemma keepsPages_run (doc0 : PDFDocument num) (counts more : list Z) :
  keepsPages (doc0 ++ quadrantLayout config counts)
             (doc0 ++ quadrantLayout config (counts ++ more)).
Proof.
  revert counts. induction more as [|n more IH]; intros counts.
  - rewrite app_nil_r. apply keepsPages_refl.
  - eapply keepsPages_trans; [apply (keepsPages_snoc doc0 counts n)|].
    replace (counts ++ n :: more) with ((counts ++ [n]) ++ more)
      by (rewrite <- app_assoc; reflexivity).
    apply IH.
Qed.

Lemma quadrantLayout_complete (counts more : list Z) (j : nat) :
  (4 * (j + 1) <= length counts)%nat ->
  quadrantLayout config (counts ++ more) !! j = quadrantLayout config counts !! j.
Proof.
  revert j. induction counts as [|a|a b|a b c|a b c d rest IH] using list_ind4;
    intros j Hj; try (cbn [length] in Hj; lia).
  cbn [app quadrantLayout]. destruct j as [|j]; [reflexivity|].
  cbn [lookup list_lookup]. apply IH. cbn [length] in Hj. lia.
Qed.

(** X6. Later calls erase nothing. Of two quadrant runs on fresh drawers, the
    second continuing the first, the longer one keeps every page of the
    shorter, with its size and with its lines, in order, before any new
    one; the pages the document had before are as they were, and so is
    every page that had its four sections. *)
Theorem quadrant_calls_keep_pages (doc0 : PDFDocument num) (counts more : list Z) :
  exists d d' : SectionDrawer num,
    drawAll (Quadrant.drawNextSection config) counts
      (Quadrant.createSectionDrawer doc0) = Done d /\
    drawAll (Quadrant.drawNextSection config) (counts ++ more)
      (Quadrant.createSectionDrawer doc0) = Done d' /\
    keepsPages (pdfDoc d) (pdfDoc d') /\
    (forall j : nat, (j < length doc0)%nat -> pdfDoc d' !! j = doc0 !! j) /\
    (forall j : nat, (4 * (j + 1) <= length counts)%nat ->
       pdfDoc d' !! (length doc0 + j)%nat = pdfDoc d !! (length doc0 + j)%nat).
Proof.
  destruct (laidOut_run config doc0 [] counts _ (laidOut_fresh config doc0))
    as (d & Hrun & Hdoc & _).
  destruct (laidOut_run config doc0 [] (counts ++ more) _ (laidOut_fresh config doc0))
    as (d' & Hrun' & Hdoc' & _).
  cbn [app] in Hdoc, Hdoc'. exists d, d'.
  split; [exact Hrun|]. split; [exact Hrun'|]. rewrite Hdoc, Hdoc'.
  split; [apply keepsPages_run|]. split.
  - intros j Hj. rewrite lookup_app_l by exact Hj. reflexivity.
  - intros j Hj. rewrite !lookup_app_r by lia.
    replace (length doc0 + j - length doc0)%nat with j by lia.
    apply quadrantLayout_complete, Hj.
Qed.
End Kept.

(** ** Where the fold lines of a quadrant page lie (exact arithmetic) *)


Section QuadrantGeometry.
Context (config : LinesGeneratorConfig Q).


End QuadrantGeometry.



(** ** The geometry of a section (exact arithmetic) *)



Section SectionGeometry.
Context (page : PDFPage Q) (x0 y0 W height : Q) (N : Z).


End SectionGeometry.

(** ** Edge cases of a run *)

Lemma drawSection_nothing {num : Type} `{Number num} (page : PDFPage num)
    (x y width height : num) (N : Z) :
  N <= 0 -> drawSection page x y width height N = page.
Proof.
  intros HN. rewrite drawSection_spec. unfold foldLines.
  replace (Z.to_nat N) with 0%nat by lia. cbn [seq map].
  rewrite app_nil_r. destruct page; reflexivity.
Qed.

Lemma upTo_all (max : Z) (l : list Z) :
  forallb (fun v => v <=? max) l = true -> upTo max l = l.
Proof.
  induction l as [|v l IH]; [reflexivity|].
  cbn [forallb upTo]. intros Hall. apply andb_prop in Hall. destruct Hall as [-> Hall].
  rewrite IH by exact Hall. reflexivity.
Qed.

Lemma progression_length (min step : Z) (n : nat) : length (progression min step n) = n.
Proof. unfold progression. rewrite length_map, length_seq. reflexivity. Qed.

Section Edges.
Context {num : Type} `{Number num}.

(** X10. A section without lines still takes its place. A line count of 0 or
    less draws no fold line, but in quadrant mode the call still uses up a
    quadrant (the index advances, and a bordered page is appended when the
    quadrant is the first of a page), and in full-page mode it still appends
    a page that has only its cut lines. *)
Theorem empty_section_takes_its_place (config : LinesGeneratorConfig num)
    (doc0 : PDFDocument num) (counts : list Z) (N : Z) :
  N <= 0 ->
  (exists d d' : SectionDrawer num,
     drawAll (Quadrant.drawNextSection config) counts
       (Quadrant.createSectionDrawer doc0) = Done d /\
     Quadrant.drawNextSection config N d = Done d' /\
     currentSectionIndex d' = currentSectionIndex d + 1 /\
     pdfDoc d' =
       if Z.of_nat (length counts) mod 4 =? 0
       then pdfDoc d ++ [quadrantPage config]
       else pdfDoc d) /\
  (forall d : SectionDrawer num,
     exists d' : SectionDrawer num,
       FullPage.drawNextSection config N d = Done d' /\
       pdfDoc d' = pdfDoc d ++ [fullPage config]).
Proof.
  intros HN. split.
  - destruct (quadrant_drawAll config counts (Quadrant.createSectionDrawer doc0)
                (quadrantInv_fresh doc0)) as (d & Hrun & Hinv & Hidx).
    cbn [Quadrant.createSectionDrawer currentSectionIndex] in Hidx.
    rewrite Z.add_0_l in Hidx.
    destruct (quadrant_drawNextSection_step config N d Hinv)
      as (front & base & Hnew & Hsame & _ & Hdraw).
    rewrite drawSection_nothing in Hdraw by exact HN.
    exists d. eexists. split; [exact Hrun|]. split; [exact Hdraw|].
    cbn [currentSectionIndex pdfDoc]. split; [reflexivity|].
    rewrite <- Hidx. destruct (Z.eqb_spec (currentSectionIndex d mod 4) 0) as [E|NE].
    + destruct (Hnew E) as [-> ->]. reflexivity.
    + symmetry. apply Hsame, NE.
  - intros d. eexists. split; [apply fullPage_drawNextSection_step|].
    cbn [pdfDoc]. rewrite drawSection_nothing by exact HN. reflexivity.
Qed.

(** X11. A range that is never left fills the document without end. With
    [min <= max] and a step of 0 or less, the script is still in the loop
    after any number of iterations, has made one call per iteration and has
    not reached the entries that follow; in quadrant mode the document has
    then a page for every four iterations, in full-page mode a page for
    every iteration. *)
Theorem stuck_range_fills_pages (pw ph : num) (minNumLines maxNumLines skipInterval : Z)
    (rest : list CenterLineSection) (bound : nat) :
  minNumLines <= maxNumLines -> skipInterval <= 0 ->
  let config := {| centerLines := Range minNumLines maxNumLines skipInterval :: rest;
                   pageHeight := ph; pageWidth := pw |} in
  (exists d : SectionDrawer num,
     Quadrant.main config bound = Running d /\
     pdfDoc d = quadrantLayout config (progression minNumLines skipInterval bound) /\
     length (pdfDoc d) = ((bound + 3) / 4)%nat /\
     currentSectionIndex d = Z.of_nat bound) /\
  (exists d : SectionDrawer num,
     FullPage.main config bound = Running d /\
     pdfDoc d = map (fullPageOf config) (progression minNumLines skipInterval bound) /\
     length (pdfDoc d) = bound).
Proof.
  intros Hle Hstep config.
  pose proof (progression_stuck minNumLines maxNumLines skipInterval) as Hstuck.
  split.
  - unfold Quadrant.main. cbv zeta. cbn [centerLines config main_forOf].
    rewrite main_for_spec, Hstuck, upTo_all by (assumption || apply Hstuck; assumption).
    destruct (laidOut_run config [] [] (progression minNumLines skipInterval bound) _
                (laidOut_fresh config [])) as (d & Hrun & Hdoc & Hidx & _).
    cbn [app] in Hdoc, Hidx. rewrite Hrun. cbn [andThen]. exists d.
    split; [reflexivity|]. split; [exact Hdoc|].
    rewrite progression_length in Hidx. split; [|exact Hidx].
    rewrite Hdoc, quadrantLayout_length, progression_length. reflexivity.
  - unfold FullPage.main. cbv zeta. cbn [centerLines config main_forOf].
    rewrite main_for_spec, Hstuck, upTo_all by (assumption || apply Hstuck; assumption).
    destruct (fullPage_drawAll config (progression minNumLines skipInterval bound)
                (FullPage.createSectionDrawer [])) as (d & Hrun & Hdoc & _).
    cbn [app pdfDoc FullPage.createSectionDrawer] in Hdoc.
    rewrite Hrun. cbn [andThen]. exists d.
    split; [reflexivity|]. split; [exact Hdoc|].
    rewrite Hdoc, length_map, progression_length. reflexivity.
Qed.
End Edges.

(** X12. The driver composes. Running a configuration made of two parts is
    running the first part and then the second from where the first
    returned, whatever [drawNextSection] is; so the counts of the whole are
    the counts of the first part followed by those of the second. *)
Theorem driver_composes {S : Type} (drawNextSection : Z -> S -> Outcome S)
    (bound : nat) (part1 part2 : list CenterLineSection) :
  (forall s : S,
     main_forOf drawNextSection bound (part1 ++ part2) s =
     main_forOf drawNextSection bound part1 s >>= main_forOf drawNextSection bound part2) /\
  (forall counts1 counts2 : list Z,
     expand bound part1 = Done counts1 ->
     expand bound part2 = Done counts2 ->
     expand bound (part1 ++ part2) = Done (counts1 ++ counts2)).
Proof.
  assert (forall (T : Type) (f : Z -> T -> Outcome T) (s : T),
    main_forOf f bound (part1 ++ part2) s =
    main_forOf f bound part1 s >>= main_forOf f bound part2) as Hcomp.
  { intros T f. induction part1 as [|c part1 IH]; intros s; [reflexivity|].
    cbn [app main_forOf]. rewrite andThen_assoc. apply andThen_ext, IH. }
  split; [apply Hcomp|].
  intros counts1 counts2 H1 H2. unfold expand in *. rewrite Hcomp, H1. cbn [andThen].
  rewrite (main_forOf_expand noteCount bound part2 counts2 counts1 H2).
  apply drawAll_noteCount.
Qed.

(** ** The counts of a range *)




(** ** The further theorems at concrete inputs *)




(** A section of 0 lines as the fifth of a run. *)
Lemma empty_section_takes_its_place_witness :
  0 <= 0 /\
  exists d d' : SectionDrawer Q,
    drawAll (Quadrant.drawNextSection example_config) [3; 5; 7; 9]
      (Quadrant.createSectionDrawer []) = Done d /\
    Quadrant.drawNextSection example_config 0 d = Done d' /\
    currentSectionIndex d' = currentSectionIndex d + 1 /\
    pdfDoc d' = pdfDoc d ++ [quadrantPage example_config].
Proof.
  split; [lia|].
  destruct (empty_section_takes_its_place example_config [] [3; 5; 7; 9] 0)
    as [(d & d' & Hrun & Hdraw & Hidx & Hdoc) _]; [lia|].
  exists d, d'. repeat split; assumption.
Defined.

(** The range [{min: 1, max: 1, step: 0}] after ten iterations. *)
Lemma stuck_range_fills_pages_witness :
  1 <= 1 /\ 0 <= 0 /\
  exists d : SectionDrawer Q,
    Quadrant.main {| centerLines := [Range 1 1 0; Fixed 3];
                     pageHeight := 1054%Q; pageWidth := 816%Q |} 10 = Running d /\
    length (pdfDoc d) = 3%nat /\
    currentSectionIndex d = 10.
Proof.
  split; [lia|]. split; [lia|].
  destruct (stuck_range_fills_pages (num := Q) 816%Q 1054%Q 1 1 0 [Fixed 3] 10)
    as [(d & Hrun & _ & Hlen & Hidx) _]; [lia..|].
  exists d. repeat split; assumption.
Defined.


Lemma driver_composes_witness :
  expand 5 [Range 3 11 2] = Done [3; 5; 7; 9; 11] /\
  expand 5 [Fixed 31] = Done [31] /\
  expand 5 ([Range 3 11 2] ++ [Fixed 31]) = Done ([3; 5; 7; 9; 11] ++ [31]).
Proof.
  split; [reflexivity|]. split; [reflexivity|].
  apply (proj2 (driver_composes noteCount 5 [Range 3 11 2] [Fixed 31])
           [3; 5; 7; 9; 11] [31]); reflexivity.
Defined.



(** Four sections and a fifth: the first page is as it was. *)
Lemma quadrant_calls_keep_pages_witness :
  (4 * (0 + 1) <= length [3; 5; 7; 9])%nat /\
  exists d d' : SectionDrawer Q,
    drawAll (Quadrant.drawNextSection example_config) [3; 5; 7; 9]
      (Quadrant.createSectionDrawer []) = Done d /\
    drawAll (Quadrant.drawNextSection example_config) ([3; 5; 7; 9] ++ [11])
      (Quadrant.createSectionDrawer []) = Done d' /\
    pdfDoc d' !! 0%nat = pdfDoc d !! 0%nat.
Proof.
  split; [cbn; lia|].
  destruct (quadrant_calls_keep_pages example_config [] [3; 5; 7; 9] [11])
    as (d & d' & Hrun & Hrun' & _ & _ & Hfinal).
  exists d, d'. split; [exact Hrun|]. split; [exact Hrun'|].
  apply (Hfinal 0%nat). cbn. lia.
Defined.
